(** * The webpack configuration composer of [lib/utils/webpack.config.js]

    The module exports one function.  Given the program settings, the site
    directory, a stage token, the port of the development server and a list
    of pages, it assembles the webpack configuration of that stage and hands
    it to the site's [modifyWebpackConfig] hook when there is one.

    The function is embedded as it is written: its local functions [output],
    [entry], [plugins], [resolve], [devtool] and [module] close over its
    arguments (a Section here), a [throw] is a result in an error type, and
    the process-wide state the function touches (site configuration, page
    registry, environment, the debug log) is an explicit [World]. *)

From stdpp Require Import base list strings gmap sets pretty.

Set Warnings "-register-all,-clear-no-such-hyp".

(** ** JavaScript values that are spelled out *)

Definition dquote : string := String (Ascii.ascii_of_nat 34) EmptyString.
Definition newline : string := String (Ascii.ascii_of_nat 10) EmptyString.
Definition backslash : string := String (Ascii.ascii_of_nat 92) EmptyString.

(** A regular-expression literal, kept as written: source and flags. *)
Record RegExp := { re_source : string; re_flags : string }.

Definition re (src : string) : RegExp := {| re_source := src; re_flags := "" |}.
Definition re_i (src : string) : RegExp := {| re_source := src; re_flags := "i" |}.

(** Template literals print a missing value as [undefined]. *)
Definition template_opt (o : option string) : string := default "undefined" o.

(** *** JSON.stringify on strings *)

Definition hex_digit (n : N) : string :=
  String (Ascii.ascii_of_N (if (n <? 10)%N then 48 + n else 87 + n)%N) EmptyString.

Definition json_escape (c : Ascii.ascii) : string :=
  let n := Ascii.N_of_ascii c in
  if (n =? 8)%N then backslash +:+ "b"
  else if (n =? 9)%N then backslash +:+ "t"
  else if (n =? 10)%N then backslash +:+ "n"
  else if (n =? 12)%N then backslash +:+ "f"
  else if (n =? 13)%N then backslash +:+ "r"
  else if (n =? 34)%N then backslash +:+ dquote
  else if (n =? 92)%N then backslash +:+ backslash
  else if (n <? 32)%N
  then backslash +:+ "u00" +:+ hex_digit (n / 16)%N +:+ hex_digit (n mod 16)%N
  else String c EmptyString.

Fixpoint json_escape_all (s : string) : string :=
  match s with
  | EmptyString => EmptyString
  | String c rest => json_escape c +:+ json_escape_all rest
  end.

Definition JSON_stringify (s : string) : string :=
  dquote +:+ json_escape_all s +:+ dquote.

(** [JSON.stringify(undefined)] is [undefined]. *)
Definition JSON_stringify_opt (o : option string) : option string :=
  JSON_stringify <$> o.

(** *** lodash [_.uniq]: first occurrences, in order *)

Fixpoint uniq_from (seen l : list string) : list string :=
  match l with
  | [] => []
  | x :: rest =>
      if existsb (String.eqb x) seen then uniq_from seen rest
      else x :: uniq_from (x :: seen) rest
  end.

Definition uniq (l : list string) : list string := uniq_from [] l.

(** Substring test, for the placeholders of a file-name pattern. *)
Fixpoint contains (needle hay : string) : bool :=
  String.prefix needle hay ||
  match hay with
  | EmptyString => false
  | String _ rest => contains needle rest
  end.

(** ** The data of a call *)

(** [program]: the command-line settings the function reads. *)
Record Program := { host : string; prefixLinks : bool }.

(** A page of the registry. *)
Record Page := { path : string; component : string }.

(** [siteDB().get(`config`)]; [linkPrefix] may be unset. *)
Record SiteConfig := { linkPrefix : option string }.

(** The process-wide state around a call.  [pagesDB] is a JS [Map] from page
    path to page, in insertion order; [NODE_ENV] is [process.env.NODE_ENV];
    [debug_log] collects what the [debug] logger was given, oldest first. *)
Record World := {
  siteDB_config : SiteConfig;
  pagesDB : list (string * Page);
  NODE_ENV : option string;
  debug_log : list string
}.

(** [debug(msg)] *)
Definition debug (msg : string) (w : World) : World :=
  {| siteDB_config := siteDB_config w;
     pagesDB := pagesDB w;
     NODE_ENV := NODE_ENV w;
     debug_log := debug_log w ++ [msg] |}.

(** [Array.from(pagesDB().values())] *)
Definition pagesDB_values (w : World) : list Page := snd <$> pagesDB w.

(** [process.env.NODE_ENV ? process.env.NODE_ENV : dflt]: the empty string
    is falsy. *)
Definition node_env_or (dflt : string) (w : World) : string :=
  match NODE_ENV w with
  | Some v => if String.eqb v "" then dflt else v
  | None => dflt
  end.

(** ** Errors *)

(** Both failures are a thrown [Error].  [StageError] is the one the
    planners throw for a stage they do not know; [ConfigContractError] is
    the one [invariant] throws, with the message it makes of its format. *)
Inductive Error :=
| StageError (message : string)
| ConfigContractError (message : string).

Inductive Result (A : Type) :=
| Ok (a : A)
| Throw (e : Error).

Arguments Ok {A} a.
Arguments Throw {A} e.

Definition bind {A B : Type} (m : Result A) (k : A -> Result B) : Result B :=
  match m with
  | Ok a => k a
  | Throw e => Throw e
  end.

Notation "'do' x <- m ; k" := (bind m (fun x => k))
  (at level 10, x name, m at level 100, k at level 200).

(** The message [invariant] makes of a format when it is given nothing to
    put in it, [format.replace(/%s/g, () => args[argIndex++])] with every
    argument [undefined]: each [%s], from the left, becomes [undefined]. *)
Fixpoint format_no_args (format : string) : string :=
  match format with
  | EmptyString => EmptyString
  | String c rest =>
      match rest with
      | String c' rest' =>
          if Ascii.eqb c (Ascii.ascii_of_nat 37) &&
             Ascii.eqb c' (Ascii.ascii_of_nat 115)
          then "undefined" +:+ format_no_args rest'
          else String c (format_no_args rest)
      | EmptyString => String c EmptyString
      end
  end.

(** [invariant(condition, format)], called with a format and nothing to
    substitute in it. *)
Definition invariant (condition : bool) (format : string) : Result unit :=
  if condition then Ok tt
  else Throw (ConfigContractError (format_no_args format)).

(** ** The parts of a configuration *)

Record Output := {
  out_path : string;
  out_filename : string;
  out_publicPath : option string;
  out_libraryTarget : option string
}.

(** An entry is one string or an array of strings. *)
Inductive EntryValue :=
| EntryOne (m : string)
| EntryMany (ms : list string).

Inductive Devtool :=
| DevtoolString (mode : string)
| DevtoolFalse.

Record Resolve := {
  res_extensions : list string;
  res_root : list string;
  res_modulesDirectories : list string
}.

(** The plugins, one constructor per class with the arguments of its [new]. *)
Inductive Plugin :=
| OccurenceOrderPlugin
| HotModuleReplacementPlugin
| NoErrorsPlugin
| DefinePlugin (process_env_NODE_ENV : string) (PREFIX_LINKS : bool)
               (LINK_PREFIX : option string)
| ExtractTextPlugin (filename : string)
| StaticSiteGeneratorPlugin (renderSrc : string) (paths : list Page)
| IgnorePlugin (requestRegExp contextRegExp : RegExp)
| WebpackMD5Hash
| DedupePlugin
| CommonsChunkPlugin (name : string) (chunks : list string) (minChunks : nat)
| OfflinePlugin (publicPath : string) (relativePaths : bool)
                (ServiceWorker_events : bool)
| UglifyJsPlugin
| StatsWriterPlugin.

(** The [loader] field of a rule: a loader name, or what
    [ExtractTextPlugin.extract] was called with (an optional loader to fall
    back on when the text is not extracted, and the loaders to extract
    from). *)
Inductive LoaderSpec :=
| LoaderName (name : string)
| ExtractTextPlugin_extract (notExtractLoader : option string)
                            (extractFrom : list string).

(** The postcss plugins the configuration requires. *)
Inductive PostcssPlugin :=
| postcss_import (addDependencyTo : bool)
| postcss_cssnext (browsers : string)
| postcss_browser_reporter
| postcss_reporter.

(** [postcss] is merged as a function of the webpack instance in the
    develop stage and as an array in the build-css stage. *)
Inductive Postcss :=
| PostcssFunction (returns : list PostcssPlugin)
| PostcssArray (items : list PostcssPlugin).

(** ** The instances of the plugins

    [new] runs the constructor of a class, and two of the classes number
    their instances from a counter of their module, which lives as long as
    the process: [ExtractTextPlugin] takes [id = ++nextId] and
    [CommonsChunkPlugin] takes [ident = __filename + (nextIdent++)]. *)

Record Counters := { nextId : nat; nextIdent : nat }.

(** What the constructor stamped on an instance. *)
Inductive Stamp :=
| Unstamped
| ExtractText_id (id : nat)
| CommonsChunk_ident (n : nat).

Definition construct (p : Plugin) (k : Counters) : Stamp * Counters :=
  match p with
  | ExtractTextPlugin _ =>
      (ExtractText_id (S (nextId k)),
       {| nextId := S (nextId k); nextIdent := nextIdent k |})
  | CommonsChunkPlugin _ _ _ =>
      (CommonsChunk_ident (nextIdent k),
       {| nextId := nextId k; nextIdent := S (nextIdent k) |})
  | _ => (Unstamped, k)
  end.

(** The elements of an array literal are evaluated from the left. *)
Fixpoint construct_all (ps : list Plugin) (k : Counters) : list Stamp * Counters :=
  match ps with
  | [] => ([], k)
  | p :: rest =>
      let '(stamp, k) := construct p k in
      let '(stamps, k) := construct_all rest k in
      (stamp :: stamps, k)
  end.

(** ** A site to run the examples on *)

Definition localhost : Program := {| host := "localhost"; prefixLinks := false |}.

Definition page_index : Page := {| path := "/"; component := "A" |}.
Definition page_about : Page := {| path := "/about/"; component := "B" |}.
Definition page_blog : Page := {| path := "/blog/"; component := "A" |}.

(** Three pages on two components. *)
Definition site_world : World :=
  {| siteDB_config := {| linkPrefix := Some "/docs" |};
     pagesDB := [("/", page_index); ("/about/", page_about); ("/blog/", page_blog)];
     NODE_ENV := None;
     debug_log := [] |}.

(** The same site before any page is registered. *)
Definition fresh_world : World :=
  {| siteDB_config := {| linkPrefix := Some "/docs" |};
     pagesDB := [];
     NODE_ENV := None;
     debug_log := [] |}.

(** A registry with one page per component path. *)
Definition world_with_components (components : list string) : World :=
  {| siteDB_config := {| linkPrefix := None |};
     pagesDB := (λ c, ("/" +:+ c +:+ "/", {| path := "/" +:+ c +:+ "/"; component := c |}))
                <$> components;
     NODE_ENV := Some "production";
     debug_log := [] |}.

(** A few numbers of the language, with how it prints them. *)
Inductive SampleNumber := number_NaN | number_zero | number_half.

Definition sample_Number_toString (n : SampleNumber) : string :=
  match n with
  | number_NaN => "NaN"
  | number_zero => "0"
  | number_half => "0.5"
  end.

(** No instance of [ExtractTextPlugin] or [CommonsChunkPlugin] was created
    yet. *)
Definition fresh_counters : Counters := {| nextId := 0; nextIdent := 0 |}.

(** Stand-ins for what the module imports: a babel configuration that lists
    its presets, and paths joined with a slash. *)
Definition sample_babelConfig (program : Program) (babelStage : string) : list string :=
  if String.eqb babelStage "develop" then ["react-hmre"; "react"; "es2015"]
  else ["react"; "es2015"].

Definition sample_layoutComponentChunkName (component : string) : string :=
  "page-component---" +:+ component.

Definition sample_require_resolve (request : string) : string :=
  "/site/node_modules/" +:+ request.

Definition sample_path_resolve (segments : list string) : string :=
  String.concat "/" segments.

Definition sample_dirname : string := "/site/node_modules/gatsby/lib/utils".

(** ** The configuration object and the values a hook may return *)

Section Composer.

(** What the module imports from the rest of the repository and from node:
    [babelConfig] (./babel-config), [layoutComponentChunkName]
    (./js-chunk-names), [require.resolve], [path.resolve] and [__dirname].
    [BabelQuery] is whatever [babelConfig] returns.  [Number] is the
    number type of the language and [Number_toString] how it prints one. *)
Variable BabelQuery : Type.
Variable babelConfig : Program -> string -> BabelQuery.
Variable layoutComponentChunkName : string -> string.
Variable require_resolve : string -> string.
Variable path_resolve : list string -> string.
Variable dirname : string.
Variable Number : Type.
Variable Number_toString : Number -> string.

(** A rule given to [config.loader]: the fields an object literal leaves out
    are [None]. *)
Record LoaderRule := {
  rule_test : RegExp;
  rule_exclude : option RegExp;
  rule_loader : option LoaderSpec;
  rule_loaders : option (list string);
  rule_query : option BabelQuery
}.

(** The object literal that is merged into the fresh configuration. *)
Record Settings := {
  cfg_context : string;
  cfg_node_filename : bool;
  cfg_entry : list (string * EntryValue);
  cfg_debug : bool;
  cfg_profile : bool;
  cfg_devtool : Devtool;
  cfg_output : Output;
  cfg_resolveLoader_root : list string;
  cfg_plugins : list Plugin;
  cfg_resolve : Resolve
}.

(** The [Config] object of webpack-configurator: what was merged, and the
    loaders by key in the order they were registered. *)
Record Config := {
  merged : Settings;
  loaders : list (string * LoaderRule);
  postcss : option Postcss
}.

(** [const config = new Config(); config.merge(settings)] *)
Definition Config_merge (settings : Settings) : Config :=
  {| merged := settings; loaders := []; postcss := None |}.

Fixpoint alist_set {V : Type} (key : string) (v : V) (l : list (string * V))
  : list (string * V) :=
  match l with
  | [] => [(key, v)]
  | (k, v') :: rest =>
      if String.eqb k key then (k, v) :: rest
      else (k, v') :: alist_set key v rest
  end.

Fixpoint alist_get {V : Type} (key : string) (l : list (string * V)) : option V :=
  match l with
  | [] => None
  | (k, v) :: rest => if String.eqb k key then Some v else alist_get key rest
  end.

(** [config.loader(key, rule)] for a key that has no rule yet, as every key
    has when [module] registers it on the fresh configuration of a call.
    (For a key that has a rule the library merges the fields of the two;
    that is not modelled, and nothing below registers a key twice.) *)
Definition Config_loader (key : string) (rule : LoaderRule) (config : Config)
  : Config :=
  {| merged := merged config;
     loaders := alist_set key rule (loaders config);
     postcss := postcss config |}.

(** [config.merge({ postcss })] *)
Definition Config_merge_postcss (p : Postcss) (config : Config) : Config :=
  {| merged := merged config;
     loaders := loaders config;
     postcss := Some p |}.

(** The values of JavaScript a hook can hand back.  An object is a plain
    one, which a template literal prints as [[object Object]]. *)
Inductive JSValue :=
| VUndefined
| VNull
| VBool (b : bool)
| VNumber (n : Number)
| VString (s : string)
| VArray (items : list JSValue)
| VObject (fields : list (string * JSValue))
| VFunction (src : string)
| VConfig (config : Config).

(** [_.isObject]: objects, arrays and functions; not [null]. *)
Definition isObject (v : JSValue) : bool :=
  match v with
  | VArray _ | VObject _ | VFunction _ | VConfig _ => true
  | VUndefined | VNull | VBool _ | VNumber _ | VString _ => false
  end.

(** How a template literal prints a value. *)
Fixpoint ToString (v : JSValue) : string :=
  match v with
  | VUndefined => "undefined"
  | VNull => "null"
  | VBool b => if b then "true" else "false"
  | VNumber n => Number_toString n
  | VString s => s
  | VArray items =>
      (fix join (l : list JSValue) : string :=
         match l with
         | [] => ""
         | x :: rest =>
             let item := match x with
                         | VUndefined | VNull => ""
                         | _ => ToString x
                         end in
             match rest with
             | [] => item
             | _ :: _ => item +:+ "," +:+ join rest
             end
         end) items
  | VObject _ => "[object Object]"
  | VFunction src => src
  | VConfig _ => "[object Object]"
  end.

(** ** The exported function

    The body of [module.exports = (program, directory, suppliedStage,
    webpackPort = 1500, pages = []) => ...].  The local functions read the
    arguments of the call, the hook found when the module was loaded, and
    the world. *)

Section Call.

Variable modifyWebpackConfig : option (Config -> string -> JSValue).
Variable w : World.
Variable program : Program.
Variable directory : string.
Variable suppliedStage : string.
Variable webpackPort : N.
Variable pages : list Page.

Definition babelStage : string := suppliedStage.

Definition stage : string :=
  if String.eqb suppliedStage "develop-html" then "develop" else suppliedStage.

(** [throw new Error(`The state requested ${stage} doesn't exist.`)] *)
Definition unknown_stage {A : Type} : Result A :=
  Throw (StageError ("The state requested " +:+ stage +:+ " doesn't exist.")).

(** [program.prefixLinks ? `${siteDB().get(`config`).linkPrefix}/` : `/`] *)
Definition prefixed_publicPath : string :=
  if prefixLinks program
  then template_opt (linkPrefix (siteDB_config w)) +:+ "/"
  else "/".

Definition output : Result Output :=
  if String.eqb stage "develop" then
    Ok {| out_path := directory;
          out_filename := "[name].js";
          out_publicPath :=
            Some ("http://" +:+ host program +:+ ":" +:+ pretty webpackPort +:+ "/");
          out_libraryTarget := None |}
  else if String.eqb stage "build-css" then
    Ok {| out_path := directory +:+ "/public";
          out_filename := "bundle-for-css.js";
          out_publicPath := Some prefixed_publicPath;
          out_libraryTarget := None |}
  else if String.eqb stage "build-html" then
    Ok {| out_path := directory +:+ "/public";
          out_filename := "render-page.js";
          out_publicPath := None;
          out_libraryTarget := Some "umd" |}
  else if String.eqb stage "build-javascript" then
    Ok {| out_path := directory +:+ "/public";
          out_filename := "[name]-[chunkhash:8].js";
          out_publicPath := Some prefixed_publicPath;
          out_libraryTarget := None |}
  else unknown_stage.

Definition entry : Result (list (string * EntryValue)) :=
  if String.eqb stage "develop" then
    Ok [("commons",
         EntryMany [
           require_resolve "webpack-dev-server/client" +:+ "?http://" +:+
             host program +:+ ":" +:+ pretty webpackPort +:+ "/";
           require_resolve "webpack/hot/only-dev-server";
           require_resolve "react-hot-loader/patch";
           directory +:+ "/.intermediate-representation/app"
         ])]
  else if String.eqb stage "build-css" then
    Ok [("main", EntryOne (directory +:+ "/.intermediate-representation/app"))]
  else if String.eqb stage "build-html" then
    Ok [("main", EntryOne (dirname +:+ "/static-entry"))]
  else if String.eqb stage "build-javascript" then
    Ok [("app",
         EntryOne (directory +:+ "/.intermediate-representation/production-app"))]
  else unknown_stage.

(** The [webpack.DefinePlugin] each stage creates; the stages differ in the
    default of [NODE_ENV] only. *)
Definition definePlugin (default_env : string) : Plugin :=
  DefinePlugin (JSON_stringify (node_env_or default_env w))
               (prefixLinks program)
               (JSON_stringify_opt (linkPrefix (siteDB_config w))).

Definition plugins : Result (list Plugin) :=
  if String.eqb stage "develop" then
    Ok [ OccurenceOrderPlugin;
         HotModuleReplacementPlugin;
         NoErrorsPlugin;
         definePlugin "development" ]
  else if String.eqb stage "build-css" then
    Ok [ definePlugin "production";
         ExtractTextPlugin "styles.css" ]
  else if String.eqb stage "build-html" then
    Ok [ StaticSiteGeneratorPlugin "render-page.js" pages;
         definePlugin "production";
         ExtractTextPlugin "styles.css" ]
  else if String.eqb stage "build-javascript" then
    let components := uniq (component <$> pagesDB_values w) in
    let components := layoutComponentChunkName <$> components in
    Ok [ IgnorePlugin (re "^\.\/locale$") (re "moment$");
         WebpackMD5Hash;
         DedupePlugin;
         OccurenceOrderPlugin;
         CommonsChunkPlugin "commons" ("app" :: components)
                            (length components / 2);
         definePlugin "production";
         ExtractTextPlugin "styles.css";
         OfflinePlugin prefixed_publicPath false true;
         UglifyJsPlugin;
         StatsWriterPlugin ]
  else unknown_stage.

Definition resolve : Resolve :=
  {| res_extensions := [""; ".js"; ".jsx"; ".cjsx"; ".coffee"];
     res_root := [directory; path_resolve [dirname; ".."; "isomorphic"]];
     res_modulesDirectories :=
       [ directory +:+ "/node_modules";
         directory +:+ "/node_modules/gatsby/node_modules";
         "node_modules" ] |}.

Definition devtool : Devtool :=
  if String.eqb stage "develop" then DevtoolString "eval"
  else if String.eqb stage "build-html" then DevtoolFalse
  else if String.eqb stage "build-javascript" then DevtoolString "source-map"
  else DevtoolFalse.

Definition cssModulesConf : string := "css?modules&minimize&importLoaders=1".

Definition cssModulesConfDev : string :=
  cssModulesConf +:+ "&sourceMap&localIdentName=[name]---[local]---[hash:base64:5]".

(** [module (config)]: the loaders every stage has, then the stylesheet
    loaders of the stage. *)
Definition module (config : Config) : Config :=
  let config := Config_loader "cjsx"
    {| rule_test := re "\.cjsx$"; rule_exclude := None;
       rule_loader := None; rule_loaders := Some ["coffee"; "cjsx"];
       rule_query := None |} config in
  let config := Config_loader "js"
    {| rule_test := re "\.jsx?$";
       rule_exclude := Some (re "(node_modules|bower_components)");
       rule_loader := Some (LoaderName "babel"); rule_loaders := None;
       rule_query := Some (babelConfig program babelStage) |} config in
  let config := Config_loader "coffee"
    {| rule_test := re "\.coffee$"; rule_exclude := None;
       rule_loader := Some (LoaderName "coffee"); rule_loaders := None;
       rule_query := None |} config in
  let config := Config_loader "json"
    {| rule_test := re "\.json$"; rule_exclude := None;
       rule_loader := None; rule_loaders := Some ["json"];
       rule_query := None |} config in
  let config := Config_loader "images"
    {| rule_test := re_i "\.(jpe?g|png|gif|svg)(\?.*)?$"; rule_exclude := None;
       rule_loader := None; rule_loaders := Some ["url-loader?limit=10000"];
       rule_query := None |} config in
  let config := Config_loader "woff"
    {| rule_test := re "\.woff(2)?(\?v=[0-9]\.[0-9]\.[0-9])?$";
       rule_exclude := None;
       rule_loader :=
         Some (LoaderName "url-loader?limit=10000&minetype=application/font-woff");
       rule_loaders := None; rule_query := None |} config in
  let config := Config_loader "ttf"
    {| rule_test := re "\.(ttf)(\?v=[0-9]\.[0-9]\.[0-9])?$";
       rule_exclude := None;
       rule_loader := Some (LoaderName "file-loader"); rule_loaders := None;
       rule_query := None |} config in
  let config := Config_loader "eot"
    {| rule_test := re "\.(eot)(\?v=[0-9]\.[0-9]\.[0-9])?$";
       rule_exclude := None;
       rule_loader := Some (LoaderName "file-loader"); rule_loaders := None;
       rule_query := None |} config in
  if String.eqb stage "develop" then
    let config := Config_loader "css"
      {| rule_test := re "\.css$"; rule_exclude := Some (re "\.module\.css$");
         rule_loader := None; rule_loaders := Some ["style"; "css"; "postcss"];
         rule_query := None |} config in
    let config := Config_loader "cssModules"
      {| rule_test := re "\.module\.css$"; rule_exclude := None;
         rule_loader := None;
         rule_loaders := Some ["style"; cssModulesConfDev; "postcss"];
         rule_query := None |} config in
    Config_merge_postcss
      (PostcssFunction [ postcss_import true;
                         postcss_cssnext "last 2 versions";
                         postcss_browser_reporter;
                         postcss_reporter ]) config
  else if String.eqb stage "build-css" then
    let config := Config_loader "css"
      {| rule_test := re "\.css$"; rule_exclude := Some (re "\.module\.css$");
         rule_loader :=
           Some (ExtractTextPlugin_extract None ["css?minimize"; "postcss"]);
         rule_loaders := None; rule_query := None |} config in
    let config := Config_loader "cssModules"
      {| rule_test := re "\.module\.css$"; rule_exclude := None;
         rule_loader :=
           Some (ExtractTextPlugin_extract (Some "style")
                                           [cssModulesConf; "postcss"]);
         rule_loaders := None; rule_query := None |} config in
    Config_merge_postcss
      (PostcssArray [ postcss_import false;
                      postcss_cssnext "last 2 versions" ]) config
  else if String.eqb stage "build-html" then
    let config := Config_loader "css"
      {| rule_test := re "\.css$"; rule_exclude := Some (re "\.module\.css$");
         rule_loader := Some (LoaderName "null");
         rule_loaders := None; rule_query := None |} config in
    Config_loader "cssModules"
      {| rule_test := re "\.module\.css$"; rule_exclude := None;
         rule_loader :=
           Some (ExtractTextPlugin_extract (Some "style")
                                           [cssModulesConf; "postcss"]);
         rule_loaders := None; rule_query := None |} config
  else if String.eqb stage "build-javascript" then
    let config := Config_loader "css"
      {| rule_test := re "\.css$"; rule_exclude := Some (re "\.module\.css$");
         rule_loader := Some (LoaderName "null");
         rule_loaders := None; rule_query := None |} config in
    Config_loader "cssModules"
      {| rule_test := re "\.module\.css$"; rule_exclude := None;
         rule_loader :=
           Some (ExtractTextPlugin_extract (Some "style")
                                           [cssModulesConf; "postcss"]);
         rule_loaders := None; rule_query := None |} config
  else config.

(** [const config = new Config(); config.merge({ ... })].  The properties of
    the object literal are evaluated in the order they are written, so
    [entry ()] is the first call that can throw, then [output ()], then
    [plugins ()]. *)
Definition config : Result Config :=
  do entry_ <- entry;
  do output_ <- output;
  do plugins_ <- plugins;
  Ok (Config_merge
        {| cfg_context := directory +:+ "/pages";
           cfg_node_filename := true;
           cfg_entry := entry_;
           cfg_debug := true;
           cfg_profile := String.eqb stage "production";
           cfg_devtool := devtool;
           cfg_output := output_;
           cfg_resolveLoader_root :=
             [ path_resolve [directory; "loaders"];
               path_resolve [dirname; ".."; "loaders"];
               path_resolve [directory; "node_modules"];
               path_resolve [directory; "node_modules/gatsby/node_modules"] ];
           cfg_plugins := plugins_;
           cfg_resolve := resolve |}).

(** The message given to [invariant]. *)
Definition hook_message (modifiedWebpackConfig : JSValue) : string :=
  newline +:+
  "              You must return an object when modifying the Webpack config." +:+
  newline +:+
  "              Returned: " +:+ ToString modifiedWebpackConfig +:+ newline +:+
  "              stage: " +:+ stage +:+ newline +:+
  "              ".

(** From [const config = new Config()] to the end of the function. *)
Definition exports_body : Result JSValue :=
  do config <- config;
  match modifyWebpackConfig with
  | Some hook =>
      let modifiedWebpackConfig := hook (module config) stage in
      do _ <- invariant (isObject modifiedWebpackConfig)
                        (hook_message modifiedWebpackConfig);
      Ok modifiedWebpackConfig
  | None => Ok (VConfig (module config))
  end.

End Call.

(** [module.exports]: the defaults of [webpackPort] and [pages] are applied,
    the stage is logged, and the body runs.  The world that comes back
    differs from the one given in the debug log only. *)
Definition compose (modifyWebpackConfig : option (Config -> string -> JSValue))
    (program : Program) (directory : string) (suppliedStage : string)
    (webpackPort : option N) (pages : option (list Page)) (w : World)
  : Result JSValue * World :=
  let webpackPort := default 1500%N webpackPort in
  let pages := default [] pages in
  let w := debug ("Loading webpack config for stage " +:+ dquote +:+
                  stage suppliedStage +:+ dquote) w in
  (exports_body modifyWebpackConfig w program directory suppliedStage
                webpackPort pages, w).

(** ** Reading a configuration *)

(** The five stage tokens. *)
Definition stages : list string :=
  ["develop"; "develop-html"; "build-css"; "build-html"; "build-javascript"].

(** The configuration a call returned, when it returned one. *)
Definition composed (r : Result JSValue * World) : option Config :=
  match r.1 with
  | Ok (VConfig c) => Some c
  | _ => None
  end.

(** The arguments of the first [CommonsChunkPlugin] of a plugin list. *)
Fixpoint commonsChunk (ps : list Plugin) : option (string * list string * nat) :=
  match ps with
  | [] => None
  | CommonsChunkPlugin name chunks minChunks :: _ => Some (name, chunks, minChunks)
  | _ :: rest => commonsChunk rest
  end.

(** [minChunks] of the shared-chunk plugin of a composed configuration. *)
Definition minChunks_of (r : Result JSValue * World) : option nat :=
  c ← composed r; '(_, _, m) ← commonsChunk (cfg_plugins (merged c)); Some m.

(** The component paths of a list of pages, as a set. *)
Definition distinct_components (ps : list Page) : gset string :=
  list_to_set (component <$> ps).

(** A rule runs loader [name] on the files it matches: it is its [loader],
    or one of its [loaders].  A loader that [ExtractTextPlugin.extract] only
    falls back on does not count. *)
Definition runs_loader (name : string) (r : LoaderRule) : bool :=
  match rule_loader r with
  | Some (LoaderName n) => String.eqb n name
  | _ => false
  end ||
  match rule_loaders r with
  | Some l => existsb (String.eqb name) l
  | None => false
  end.

(** A rule extracts what it matches into the file of [ExtractTextPlugin]. *)
Definition extracts (r : LoaderRule) : bool :=
  match rule_loader r with
  | Some (ExtractTextPlugin_extract _ _) => true
  | _ => false
  end.

(** The rule registered under a key. *)
Definition loader_of (key : string) (c : Config) : option LoaderRule :=
  alist_get key (loaders c).

(** The snapshots of a world: everything but the debug log. *)
Definition snapshots (w : World) : SiteConfig * list (string * Page) * option string :=
  (siteDB_config w, pagesDB w, NODE_ENV w).

(** ** Looking for the hook when the module is loaded

    [try { const nodeConfig = require(gatsbyNodeConfig);
           modifyWebpackConfig = nodeConfig.modifyWebpackConfig }
     catch (e) { if (e.code !== `MODULE_NOT_FOUND` &&
                     !_.includes(e.Error, `gatsby-node`)) console.log(e) }] *)

(** What [e.code] and [e.Error] read as on what was caught, when it is
    neither [null] nor [undefined]; on a primitive both are missing. *)
Record Caught := { caught_code : option string; caught_Error : JSValue }.

(** How requiring [gatsby-node] ends: with the exports of the module, whose
    [modifyWebpackConfig] may be missing; with exports that are [null] or
    [undefined]; or with something thrown, which is [None] for a thrown
    [null] or [undefined]. *)
Inductive Required :=
| Exports (modifyWebpackConfig : option (Config -> string -> JSValue))
| NoExports
| Throws (e : option Caught).

(** Reading a property of [null] or [undefined] throws a [TypeError], which
    has neither a [code] nor an [Error] property. *)
Definition TypeError : Caught :=
  {| caught_code := None; caught_Error := VUndefined |}.

Definition is_string (value : string) (v : JSValue) : bool :=
  match v with
  | VString s => String.eqb s value
  | _ => false
  end.

(** [_.includes(collection, value)] for a string [value]: a substring of a
    string, an element of an array, a value of an object, and nothing else. *)
Definition lodash_includes (collection : JSValue) (value : string) : bool :=
  match collection with
  | VString s => contains value s
  | VArray items => existsb (is_string value) items
  | VObject fields => existsb (λ kv, is_string value kv.2) fields
  | _ => false
  end.

(** The [catch] block: what it gives to [console.log].  On a caught [null]
    or [undefined] reading [e.code] throws, nothing catches that, and the
    block has no result. *)
Definition catch_block (e : option Caught) : option (list Caught) :=
  match e with
  | None => None
  | Some e =>
      Some (if negb (bool_decide (caught_code e = Some "MODULE_NOT_FOUND")) &&
               negb (lodash_includes (caught_Error e) "gatsby-node")
            then [e] else [])
  end.

(** The hook the module ends up with and what was logged on the way, or
    [None] when loading the module itself fails. *)
Definition load_gatsby_node (r : Required)
  : option (option (Config -> string -> JSValue) * list Caught) :=
  match r with
  | Exports modifyWebpackConfig => Some (modifyWebpackConfig, [])
  | NoExports => logged ← catch_block (Some TypeError); Some (None, logged)
  | Throws e => logged ← catch_block e; Some (None, logged)
  end.

(** A call with its plugins as the instances they are: the result, the
    stamps of the plugins that [plugins ()] created, in their order, and the
    world and the counters the call leaves. *)
Record Call := {
  call_result : Result JSValue;
  call_stamps : list Stamp;
  call_world : World;
  call_counters : Counters
}.

Definition compose_instances
    (modifyWebpackConfig : option (Config -> string -> JSValue))
    (program : Program) (directory : string) (suppliedStage : string)
    (webpackPort : option N) (pages : option (list Page))
    (w : World) (k : Counters) : Call :=
  let r := compose modifyWebpackConfig program directory suppliedStage
                   webpackPort pages w in
  match config r.2 program directory suppliedStage
               (default 1500%N webpackPort) (default [] pages) with
  | Ok c =>
      let '(stamps, k') := construct_all (cfg_plugins (merged c)) k in
      {| call_result := r.1; call_stamps := stamps;
         call_world := r.2; call_counters := k' |}
  | Throw _ =>
      {| call_result := r.1; call_stamps := [];
         call_world := r.2; call_counters := k |}
  end.

(** A stamp taken after [e] more ids and [m] more idents were drawn. *)
Definition shift_stamp (e m : nat) (stamp : Stamp) : Stamp :=
  match stamp with
  | Unstamped => Unstamped
  | ExtractText_id id => ExtractText_id (e + id)
  | CommonsChunk_ident n => CommonsChunk_ident (m + n)
  end.

(** ** More ways to read a configuration *)

(** The keys [module] registers a rule under, in the order of its calls. *)
Definition module_keys : list string :=
  ["cjsx"; "js"; "coffee"; "json"; "images"; "woff"; "ttf"; "eot";
   "css"; "cssModules"].

(** The keys of the rules that do not depend on the stage. *)
Definition common_keys : list string :=
  ["cjsx"; "coffee"; "json"; "images"; "woff"; "ttf"; "eot"].

Definition is_DefinePlugin (p : Plugin) : bool :=
  match p with DefinePlugin _ _ _ => true | _ => false end.

Definition is_ExtractTextPlugin (p : Plugin) : bool :=
  match p with ExtractTextPlugin _ => true | _ => false end.

Definition is_CommonsChunkPlugin (p : Plugin) : bool :=
  match p with CommonsChunkPlugin _ _ _ => true | _ => false end.

(** The world with another page registry. *)
Definition with_pagesDB (db : list (string * Page)) (w : World) : World :=
  {| siteDB_config := siteDB_config w;
     pagesDB := db;
     NODE_ENV := NODE_ENV w;
     debug_log := debug_log w |}.

(** * Properties

    The properties of a stage are stated for a call without a hook.  With a
    hook, the configuration of that call is what the hook is given
    ([compose_with_hook]). *)

(** ** [_.uniq] *)

Lemma existsb_eqb_elem_of (x : string) (l : list string) :
  existsb (String.eqb x) l = true <-> x ∈ l.
Proof.
  rewrite existsb_exists. split.
  - intros (y & Hy & Heq). apply String.eqb_eq in Heq. subst y.
    by apply list_elem_of_In.
  - intros Hx. exists x. split; [by apply list_elem_of_In | apply String.eqb_refl].
Qed.

Lemma elem_of_uniq_from (seen l : list string) (x : string) :
  x ∈ uniq_from seen l <-> x ∈ l ∧ x ∉ seen.
Proof.
  revert seen. induction l as [|y l IH]; intros seen; simpl.
  - split; [intros H; inversion H | intros [H _]; inversion H].
  - destruct (existsb (String.eqb y) seen) eqn:E.
    + apply existsb_eqb_elem_of in E. rewrite IH. set_solver.
    + assert (y ∉ seen) as Hy.
      { intros Hin. apply existsb_eqb_elem_of in Hin. congruence. }
      rewrite elem_of_cons, IH. set_unfold.
      destruct (decide (x = y)) as [->|Hne]; naive_solver.
Qed.

Lemma NoDup_uniq_from (seen l : list string) : NoDup (uniq_from seen l).
Proof.
  revert seen. induction l as [|y l IH]; intros seen; simpl.
  - constructor.
  - destruct (existsb (String.eqb y) seen); [apply IH|].
    constructor; [|apply IH].
    rewrite elem_of_uniq_from. set_solver.
Qed.

Lemma elem_of_uniq (l : list string) (x : string) : x ∈ uniq l <-> x ∈ l.
Proof. unfold uniq. rewrite elem_of_uniq_from. set_solver. Qed.

(** [_.uniq] leaves as many elements as the list has distinct ones. *)
Lemma length_uniq (l : list string) :
  length (uniq l) = size (list_to_set l : gset string).
Proof.
  rewrite <- (size_list_to_set (C := gset string) (uniq l))
    by apply NoDup_uniq_from.
  f_equal. apply set_eq. intros x.
  rewrite !elem_of_list_to_set. apply elem_of_uniq.
Qed.

(** ** Rules by key *)

Lemma alist_get_set_eq {V : Type} (key : string) (v : V) (l : list (string * V)) :
  alist_get key (alist_set key v l) = Some v.
Proof.
  induction l as [|[k v'] l IH]; simpl.
  - by rewrite String.eqb_refl.
  - destruct (String.eqb k key) eqn:E; simpl; rewrite E; [done | apply IH].
Qed.

Lemma alist_get_set_ne {V : Type} (key k : string) (v : V) (l : list (string * V)) :
  k ≠ key -> alist_get k (alist_set key v l) = alist_get k l.
Proof.
  intros Hne. induction l as [|[k' v'] l IH]; simpl.
  - destruct (String.eqb key k) eqn:E; [|done].
    apply String.eqb_eq in E. congruence.
  - destruct (String.eqb k' key) eqn:E; simpl.
    + apply String.eqb_eq in E. subst k'.
      destruct (String.eqb key k) eqn:E'; [|done].
      apply String.eqb_eq in E'. congruence.
    + by rewrite IH.
Qed.

Lemma alist_get_set_other {V : Type} (key k : string) (v : V)
    (l l' : list (string * V)) :
  l' = alist_set key v l -> k ≠ key -> alist_get k l' = alist_get k l.
Proof. intros ->. apply alist_get_set_ne. Qed.

(** ** Stages *)

Lemma elem_of_stages (s : string) :
  s ∈ stages <->
  s = "develop" ∨ s = "develop-html" ∨ s = "build-css" ∨ s = "build-html" ∨
  s = "build-javascript".
Proof. unfold stages. rewrite !elem_of_cons, elem_of_nil. tauto. Qed.

(** A token that is not a stage is its own normal form and matches no case
    of a [switch]. *)
Lemma stage_unknown (s : string) :
  s ∉ stages ->
  stage s = s ∧
  String.eqb s "develop" = false ∧ String.eqb s "build-css" = false ∧
  String.eqb s "build-html" = false ∧ String.eqb s "build-javascript" = false.
Proof.
  rewrite elem_of_stages. intros Hs. unfold stage.
  repeat split; try (apply String.eqb_neq; intros ->; tauto).
  destruct (String.eqb s "develop-html") eqn:E; [|done].
  apply String.eqb_eq in E. tauto.
Qed.

(** C9: the source-map mode of each stage. *)
Theorem devtool_by_stage (program : Program) (directory : string)
    (port : option N) (pages : option (list Page)) (w : World) :
  let mode s := cfg_devtool ∘ merged <$>
                composed (compose None program directory s port pages w) in
  mode "develop" = Some (DevtoolString "eval") ∧
  mode "develop-html" = Some (DevtoolString "eval") ∧
  mode "build-javascript" = Some (DevtoolString "source-map") ∧
  mode "build-css" = Some DevtoolFalse ∧
  mode "build-html" = Some DevtoolFalse.
Proof. cbv zeta. repeat apply conj; reflexivity. Qed.

(** C10: [profile] compares the stage with [production], which no stage
    is, so a composed configuration never has it set. *)
Theorem profile_is_false (program : Program) (directory s : string)
    (port : option N) (pages : option (list Page)) (w : World) :
  s ∈ stages ->
  cfg_profile ∘ merged <$>
    composed (compose None program directory s port pages w) = Some false.
Proof.
  rewrite elem_of_stages.
  intros [-> | [-> | [-> | [-> | ->]]]]; reflexivity.
Qed.

(** C6: the file name of the production bundles carries the chunk-hash
    placeholder; the other stages write fixed names without any hash. *)
Theorem output_filename_by_stage (program : Program) (directory : string)
    (port : option N) (pages : option (list Page)) (w : World) :
  let filename s := out_filename ∘ cfg_output ∘ merged <$>
                    composed (compose None program directory s port pages w) in
  filename "build-javascript" = Some "[name]-[chunkhash:8].js" ∧
  contains "[chunkhash:8]" <$> filename "build-javascript" = Some true ∧
  filename "develop" = Some "[name].js" ∧
  filename "develop-html" = Some "[name].js" ∧
  filename "build-css" = Some "bundle-for-css.js" ∧
  filename "build-html" = Some "render-page.js" ∧
  contains "hash" <$> filename "develop" = Some false ∧
  contains "hash" <$> filename "develop-html" = Some false ∧
  contains "hash" <$> filename "build-css" = Some false ∧
  contains "hash" <$> filename "build-html" = Some false.
Proof. cbv zeta. repeat apply conj; reflexivity. Qed.

(** C7: the public path of the develop stage is the URL of the development
    server, and a call without a port is a call with port 1500. *)
Theorem develop_publicPath (hook : option (Config -> string -> JSValue))
    (program : Program) (directory s : string) (port : N) (prefix : bool)
    (pages : option (list Page)) (w : World) :
  (out_publicPath ∘ cfg_output ∘ merged <$>
     composed (compose None program directory "develop" (Some port) pages w)
   = Some (Some ("http://" +:+ host program +:+ ":" +:+ pretty port +:+ "/"))) ∧
  compose hook program directory s None pages w
  = compose hook program directory s (Some 1500%N) pages w ∧
  (out_publicPath ∘ cfg_output ∘ merged <$>
     composed (compose None {| host := "localhost"; prefixLinks := prefix |}
                       directory "develop" None pages w)
   = Some (Some "http://localhost:1500/")).
Proof. repeat apply conj; reflexivity. Qed.

(** C5: the stylesheet rules.  No rule of the build-css, build-html and
    build-javascript stages runs the [style] loader, which injects a
    stylesheet at run time; the rule for plain stylesheets of the develop
    stage does.  In the build-html and build-javascript stages plain
    stylesheets go to the [null] loader, and stylesheet modules are still
    extracted into the file of [ExtractTextPlugin]. *)
Theorem stylesheet_rules_by_stage (program : Program) (directory : string)
    (port : option N) (pages : option (list Page)) (w : World) :
  let cfg s := composed (compose None program directory s port pages w) in
  let plain s := cfg s ≫= loader_of "css" in
  let scoped s := cfg s ≫= loader_of "cssModules" in
  let no_injection s :=
    forallb (λ kr, negb (runs_loader "style" kr.2)) ∘ loaders <$> cfg s in
  let plain_rule loader loaders :=
    {| rule_test := re "\.css$"; rule_exclude := Some (re "\.module\.css$");
       rule_loader := loader; rule_loaders := loaders; rule_query := None |} in
  (no_injection "build-css" = Some true ∧
   no_injection "build-html" = Some true ∧
   no_injection "build-javascript" = Some true) ∧
  (plain "develop" = Some (plain_rule None (Some ["style"; "css"; "postcss"])) ∧
   plain "develop-html" = plain "develop" ∧
   runs_loader "style" <$> plain "develop" = Some true) ∧
  (plain "build-css" =
     Some (plain_rule
             (Some (ExtractTextPlugin_extract None ["css?minimize"; "postcss"]))
             None) ∧
   plain "build-html" = Some (plain_rule (Some (LoaderName "null")) None) ∧
   plain "build-javascript" = Some (plain_rule (Some (LoaderName "null")) None)) ∧
  (extracts <$> scoped "build-html" = Some true ∧
   extracts <$> scoped "build-javascript" = Some true ∧
   ExtractTextPlugin "styles.css"
     ∈ default [] (cfg_plugins ∘ merged <$> cfg "build-html") ∧
   ExtractTextPlugin "styles.css"
     ∈ default [] (cfg_plugins ∘ merged <$> cfg "build-javascript")).
Proof.
  cbv zeta. repeat apply conj; try reflexivity.
  - apply list_elem_of_In. cbn. tauto.
  - apply list_elem_of_In. cbn -[Nat.div]. tauto.
Qed.

(** ** Formats *)

Lemma prefix_empty (s : string) : String.prefix "" s = true.
Proof. by destruct s. Qed.

Lemma prefix_percent_s (c c' : Ascii.ascii) (rest : string) :
  String.prefix "%s" (String c (String c' rest))
  = Ascii.eqb c (Ascii.ascii_of_nat 37) && Ascii.eqb c' (Ascii.ascii_of_nat 115).
Proof.
  cbn -[Ascii.ascii_dec Ascii.eqb].
  destruct (Ascii.ascii_dec _ c) as [<-|Hc].
  - destruct (Ascii.ascii_dec _ c') as [<-|Hc'].
    + by rewrite prefix_empty.
    + symmetry. apply andb_false_intro2. apply Ascii.eqb_neq. intros ->. by apply Hc'.
  - symmetry. apply andb_false_intro1. apply Ascii.eqb_neq. intros ->. by apply Hc.
Qed.

Lemma prefix_s (c : Ascii.ascii) (rest : string) :
  String.prefix "s" (String c rest) = Ascii.eqb c (Ascii.ascii_of_nat 115).
Proof.
  cbn -[Ascii.ascii_dec Ascii.eqb].
  destruct (Ascii.ascii_dec _ c) as [<-|Hc].
  - by rewrite prefix_empty.
  - symmetry. apply Ascii.eqb_neq. intros ->. by apply Hc.
Qed.

Lemma contains_cons (needle : string) (c : Ascii.ascii) (rest : string) :
  contains needle (String c rest)
  = String.prefix needle (String c rest) || contains needle rest.
Proof. reflexivity. Qed.

Lemma format_no_args_id (format : string) :
  contains "%s" format = false -> format_no_args format = format.
Proof.
  induction format as [|c rest IH]; [done|].
  destruct rest as [|c' rest']; [done|].
  rewrite contains_cons. intros H.
  apply orb_false_elim in H as [Hp Hc].
  rewrite prefix_percent_s in Hp.
  change (format_no_args (String c (String c' rest')))
    with (if Ascii.eqb c (Ascii.ascii_of_nat 37) &&
             Ascii.eqb c' (Ascii.ascii_of_nat 115)
          then "undefined" +:+ format_no_args rest'
          else String c (format_no_args (String c' rest'))).
  rewrite Hp. f_equal. by apply IH.
Qed.

Lemma contains_percent_s_app (a b : string) :
  String.prefix "s" b = false ->
  contains "%s" (a +:+ b) = contains "%s" a || contains "%s" b.
Proof.
  intros Hb. induction a as [|c a IH].
  - change ("" +:+ b) with b. by destruct b.
  - change (String c a +:+ b) with (String c (a +:+ b)).
    rewrite !contains_cons, IH, orb_assoc. f_equal. f_equal.
    destruct a as [|c' a].
    + change ("" +:+ b) with b. destruct b as [|c' b]; [done|].
      rewrite prefix_percent_s. rewrite prefix_s in Hb. rewrite Hb.
      rewrite andb_false_r.
      cbn -[Ascii.ascii_dec]. by destruct (Ascii.ascii_dec _ c).
    + change (String c' a +:+ b) with (String c' (a +:+ b)).
      by rewrite !prefix_percent_s.
Qed.


Lemma contains_skip_prefix (a b : string) :
  contains "%" a = false -> contains "%s" (a +:+ b) = contains "%s" b.
Proof.
  induction a as [|c a IH]; [done|].
  rewrite contains_cons. intros H. apply orb_false_elim in H as [Hc Ha].
  change (String c a +:+ b) with (String c (a +:+ b)).
  rewrite contains_cons, (IH Ha).
  replace (String.prefix "%s" (String c (a +:+ b))) with false; [done|].
  revert Hc. cbn -[Ascii.ascii_dec].
  destruct (Ascii.ascii_dec _ c); [by rewrite prefix_empty | done].
Qed.

(** ** The hook *)

(** What a call with a hook returns is what the call without one returns,
    given to the hook together with the normalised stage and then checked. *)
Lemma compose_with_hook (hook : Config -> string -> JSValue)
    (program : Program) (directory s : string)
    (port : option N) (pages : option (list Page)) (w : World) :
  compose (Some hook) program directory s port pages w =
  match composed (compose None program directory s port pages w) with
  | Some c =>
      let v := hook c (stage s) in
      (if isObject v then Ok v
       else Throw (ConfigContractError (format_no_args (hook_message s v))),
       (compose None program directory s port pages w).2)
  | None => compose None program directory s port pages w
  end.
Proof.
  unfold compose, composed, exports_body. cbn [fst snd].
  destruct (config _ _ _ _ _ _) as [c|e]; cbn; [|reflexivity].
  destruct (isObject _); reflexivity.
Qed.

(** C8: the develop-html stage is the develop stage but for the [query] of
    the [js] rule, which is what [babelConfig] makes of the supplied stage:
    settings, postcss and every other rule are the same, in the same
    order, and so is what is logged. *)
Theorem develop_html_is_develop (program : Program) (directory : string)
    (port : option N) (pages : option (list Page)) (w : World) :
  let develop := compose None program directory "develop" port pages w in
  let develop_html := compose None program directory "develop-html" port pages w in
  ∃ c c' js,
    composed develop = Some c ∧ composed develop_html = Some c' ∧
    merged c' = merged c ∧
    postcss c' = postcss c ∧
    loader_of "js" c = Some js ∧
    rule_query js = Some (babelConfig program "develop") ∧
    loaders c' =
      alist_set "js"
        {| rule_test := rule_test js; rule_exclude := rule_exclude js;
           rule_loader := rule_loader js; rule_loaders := rule_loaders js;
           rule_query := Some (babelConfig program "develop-html") |}
        (loaders c) ∧
    (∀ key, key = "js" ∨ loader_of key c' = loader_of key c) ∧
    develop_html.2 = develop.2.
Proof.
  cbv zeta. eexists _, _, _.
  repeat apply conj; try reflexivity.
  intros key. destruct (decide (key = "js")) as [Hkey|Hkey]; [by left | right].
  unfold loader_of.
  eapply (alist_get_set_other "js"); [reflexivity | exact Hkey].
Qed.


(** ** Unknown stages *)

(** C2: a token that is none of the five stages makes the call fail in
    [entry ()], the first thing that is evaluated for the configuration:
    whatever the hook, the settings, the pages and the world are, the result
    is the error naming the token, no configuration comes back, and the
    world has changed in the debug log only. *)
Theorem unknown_stage_fails (hook : option (Config -> string -> JSValue))
    (program : Program) (directory s : string)
    (port : option N) (pages : option (list Page)) (w : World) :
  s ∉ stages ->
  entry program directory s (default 1500%N port)
    = Throw (StageError ("The state requested " +:+ s +:+ " doesn't exist.")) ∧
  compose hook program directory s port pages w
    = (Throw (StageError ("The state requested " +:+ s +:+ " doesn't exist.")),
       debug ("Loading webpack config for stage " +:+ dquote +:+ s +:+ dquote) w) ∧
  composed (compose hook program directory s port pages w) = None.
Proof.
  intros Hs. destruct (stage_unknown s Hs) as (Hst & E1 & E2 & E3 & E4).
  assert (entry program directory s (default 1500%N port)
          = Throw (StageError ("The state requested " +:+ s +:+ " doesn't exist.")))
    as Hentry.
  { unfold entry, unknown_stage. rewrite Hst, E1, E2, E3, E4. reflexivity. }
  assert (compose hook program directory s port pages w
          = (Throw (StageError ("The state requested " +:+ s +:+ " doesn't exist.")),
             debug ("Loading webpack config for stage " +:+ dquote +:+ s +:+ dquote) w))
    as Hcompose.
  { unfold compose, exports_body, config. rewrite Hentry, Hst. reflexivity. }
  repeat apply conj; [exact Hentry | exact Hcompose |].
  unfold composed. rewrite Hcompose. reflexivity.
Qed.

(** ** Determinism *)

(** The body reads the world through its snapshots only. *)
Lemma exports_body_snapshots (hook : option (Config -> string -> JSValue))
    (program : Program) (directory s : string) (port : N) (pages : list Page)
    (w w' : World) :
  snapshots w = snapshots w' ->
  exports_body hook w program directory s port pages
  = exports_body hook w' program directory s port pages.
Proof.
  destruct w as [site db env log], w' as [site' db' env' log'].
  unfold snapshots. cbn. intros [= -> -> ->]. reflexivity.
Qed.

Lemma compose_snapshots (hook : option (Config -> string -> JSValue))
    (program : Program) (directory s : string)
    (port : option N) (pages : option (list Page)) (w : World) :
  snapshots (compose hook program directory s port pages w).2 = snapshots w.
Proof. reflexivity. Qed.


(** ** The shared chunk *)

(** C1, as the code has it: [minChunks] of the [CommonsChunkPlugin] of the
    build-javascript stage is half, rounded down, the number of distinct
    components among the pages of the registry [pagesDB]; the [pages]
    argument plays no part.  The chunks are the app and one chunk per
    distinct component, named by [layoutComponentChunkName]. *)
Theorem commons_minChunks (program : Program) (directory : string)
    (port : option N) (pages : option (list Page)) (w : World) :
  let r := compose None program directory "build-javascript" port pages w in
  minChunks_of r = Some (size (distinct_components (pagesDB_values w)) / 2) ∧
  (composed r ≫= commonsChunk ∘ cfg_plugins ∘ merged) =
    Some ("commons",
          "app" :: (layoutComponentChunkName <$>
                      uniq (component <$> pagesDB_values w)),
          size (distinct_components (pagesDB_values w)) / 2).
Proof.
  cbv zeta. unfold distinct_components. rewrite <- length_uniq.
  rewrite <- (length_fmap layoutComponentChunkName).
  split; reflexivity.
Qed.

(** * More of the module *)

(** ** The planners on a token that is no stage *)

Lemma stage_not_develop_html (s : string) :
  String.eqb (stage s) "develop-html" = false.
Proof.
  unfold stage. destruct (String.eqb s "develop-html") eqn:E; [reflexivity|exact E].
Qed.

(** X1: [output ()] and [plugins ()] reject a token that is no stage with
    the message [entry ()] has for it, and [devtool ()] answers [false]
    for it instead. *)
Theorem planners_on_unknown_stage (program : Program) (directory s : string)
    (port : N) (pages : list Page) (w : World) :
  s ∉ stages ->
  output w program directory s port
    = Throw (StageError ("The state requested " +:+ s +:+ " doesn't exist.")) ∧
  plugins w program s pages
    = Throw (StageError ("The state requested " +:+ s +:+ " doesn't exist.")) ∧
  devtool s = DevtoolFalse.
Proof.
  intros Hs. destruct (stage_unknown s Hs) as (Hst & E1 & E2 & E3 & E4).
  unfold output, plugins, devtool, unknown_stage.
  rewrite Hst, E1, E2, E3, E4. repeat split.
Qed.

(** X2: [module (config)] does not throw for a token that is no stage: a
    fresh configuration comes back with the eight rules every stage has, in
    the order of the calls, with no rule for stylesheets and no postcss. *)
Theorem module_on_unknown_stage (program : Program) (s : string)
    (settings : Settings) :
  s ∉ stages ->
  let c := module program s (Config_merge settings) in
  (loaders c).*1 = ["cjsx"; "js"; "coffee"; "json"; "images"; "woff"; "ttf"; "eot"] ∧
  loader_of "css" c = None ∧ loader_of "cssModules" c = None ∧
  postcss c = None ∧ merged c = settings.
Proof.
  intros Hs. destruct (stage_unknown s Hs) as (Hst & E1 & E2 & E3 & E4).
  cbv zeta. unfold module. rewrite Hst, E1, E2, E3, E4. repeat split.
Qed.

(** X3: without a hook, a call returns a configuration exactly when the
    token is one of the five stages. *)
Theorem composes_iff_stage (program : Program) (directory s : string)
    (port : option N) (pages : option (list Page)) (w : World) :
  is_Some (composed (compose None program directory s port pages w)) <-> s ∈ stages.
Proof.
  split.
  - intros Hc. destruct (decide (s ∈ stages)) as [Hs|Hs]; [exact Hs|].
    destruct (stage_unknown s Hs) as (Hst & E1 & E2 & E3 & E4).
    exfalso. revert Hc.
    unfold composed, compose, exports_body, config, entry, unknown_stage.
    rewrite Hst, E1, E2, E3, E4. cbn. intros [c Hc]. discriminate Hc.
  - rewrite elem_of_stages.
    intros [-> | [-> | [-> | [-> | ->]]]]; eexists; reflexivity.
Qed.

(** ** What the stages share *)

(** X5: every stage registers its rules under the same ten keys in the same
    order, and the rules for cjsx, coffee, json, images and fonts are the
    same in every stage, whatever the other arguments and the world are. *)
Theorem common_rules_across_stages (program program' : Program)
    (directory directory' s s' : string) (port port' : option N)
    (pages pages' : option (list Page)) (w w' : World) :
  s ∈ stages -> s' ∈ stages ->
  let c := composed (compose None program directory s port pages w) in
  let c' := composed (compose None program' directory' s' port' pages' w') in
  (λ c, (loaders c).*1) <$> c = Some module_keys ∧
  (λ c, (λ key, loader_of key c) <$> common_keys) <$> c
  = (λ c, (λ key, loader_of key c) <$> common_keys) <$> c'.
Proof.
  rewrite !elem_of_stages.
  intros [-> | [-> | [-> | [-> | ->]]]] [-> | [-> | [-> | [-> | ->]]]];
    split; reflexivity.
Qed.

(** X6: where modules and loaders are looked up, and the context, depend on
    the directory only: two calls for the same directory agree on them,
    whatever their stages, settings, ports, pages and worlds are. *)
Theorem resolution_depends_on_directory (program program' : Program)
    (directory s s' : string) (port port' : option N)
    (pages pages' : option (list Page)) (w w' : World) :
  s ∈ stages -> s' ∈ stages ->
  let lookup (c : Config) :=
    (cfg_context (merged c), cfg_resolve (merged c),
     cfg_resolveLoader_root (merged c)) in
  lookup <$> composed (compose None program directory s port pages w)
  = lookup <$> composed (compose None program' directory s' port' pages' w') ∧
  (head ∘ res_root ∘ cfg_resolve ∘ merged <$>
     composed (compose None program directory s port pages w))
  = Some (Some directory).
Proof.
  rewrite !elem_of_stages.
  intros [-> | [-> | [-> | [-> | ->]]]] [-> | [-> | [-> | [-> | ->]]]];
    split; reflexivity.
Qed.

(** ** What each argument reaches *)

Lemma stage_eq_inv (s t : string) :
  t ≠ "develop" -> String.eqb (stage s) t = true -> s = t.
Proof.
  unfold stage. intros Ht.
  destruct (String.eqb s "develop-html") eqn:E.
  - intros H. apply String.eqb_eq in H. congruence.
  - intros H. by apply String.eqb_eq in H.
Qed.

(** X7: the pages given to a call reach the build-html stage only, where
    they are handed to [StaticSiteGeneratorPlugin] as they are; in every
    other stage, and for a token that is no stage, the call does the same
    whatever pages it is given. *)
Theorem pages_reach_build_html_only (hook : option (Config -> string -> JSValue))
    (program : Program) (directory s : string) (port : option N)
    (pages pages' : option (list Page)) (w : World) :
  (s ≠ "build-html" ->
   compose hook program directory s port pages w
   = compose hook program directory s port pages' w) ∧
  (head ∘ cfg_plugins ∘ merged <$>
     composed (compose None program directory "build-html" port pages w))
  = Some (Some (StaticSiteGeneratorPlugin "render-page.js" (default [] pages))).
Proof.
  split; [|reflexivity].
  intros Hs. unfold compose. f_equal.
  unfold exports_body, config. do 3 f_equal.
  unfold plugins.
  destruct (String.eqb (stage s) "develop"); [reflexivity|].
  destruct (String.eqb (stage s) "build-css"); [reflexivity|].
  destruct (String.eqb (stage s) "build-html") eqn:E; [|reflexivity].
  apply stage_eq_inv in E; [contradiction | discriminate].
Qed.

(** X8: the port reaches the develop stage only: in every other stage, and
    for a token that is no stage, the call does the same whatever the port
    is. *)
Theorem port_reaches_develop_only (hook : option (Config -> string -> JSValue))
    (program : Program) (directory s : string) (port port' : option N)
    (pages : option (list Page)) (w : World) :
  s ≠ "develop" -> s ≠ "develop-html" ->
  compose hook program directory s port pages w
  = compose hook program directory s port' pages w.
Proof.
  intros Hs Hs'.
  assert (String.eqb (stage s) "develop" = false) as E.
  { unfold stage. destruct (String.eqb s "develop-html") eqn:E'.
    - apply String.eqb_eq in E'. contradiction.
    - by apply String.eqb_neq. }
  unfold compose. f_equal.
  unfold exports_body, config, entry, output. rewrite E. reflexivity.
Qed.

(** X9: without a hook, the page registry reaches the build-javascript
    stage only: in every other stage, and for a token that is no stage, a
    call returns the same whatever pages are registered. *)
Theorem registry_reaches_build_javascript_only
    (program : Program) (directory s : string) (port : option N)
    (pages : option (list Page)) (db : list (string * Page)) (w : World) :
  s ≠ "build-javascript" ->
  (compose None program directory s port pages (with_pagesDB db w)).1
  = (compose None program directory s port pages w).1.
Proof.
  intros Hs. unfold compose. cbn [fst].
  unfold exports_body, config. do 3 f_equal.
  unfold plugins.
  destruct (String.eqb (stage s) "develop"); [reflexivity|].
  destruct (String.eqb (stage s) "build-css"); [reflexivity|].
  destruct (String.eqb (stage s) "build-html"); [reflexivity|].
  destruct (String.eqb (stage s) "build-javascript") eqn:E; [|reflexivity].
  apply stage_eq_inv in E; [contradiction | discriminate].
Qed.

(** ** Plugins and rules that go together *)

(** X10: every stage has exactly one [DefinePlugin].  Its [NODE_ENV] is the
    one of the environment, quoted, and when that is unset or the empty
    string it is [development] in the develop stages and [production] in
    the others. *)
Theorem one_DefinePlugin_per_stage (program : Program) (directory s : string)
    (port : option N) (pages : option (list Page)) (w : World) :
  s ∈ stages ->
  let fallback :=
    if bool_decide (s = "develop" ∨ s = "develop-html")
    then "development" else "production" in
  let env :=
    match NODE_ENV w with
    | Some "" | None => fallback
    | Some v => v
    end in
  List.filter is_DefinePlugin ∘ cfg_plugins ∘ merged <$>
    composed (compose None program directory s port pages w)
  = Some [DefinePlugin (JSON_stringify env) (prefixLinks program)
                       (JSON_stringify <$> linkPrefix (siteDB_config w))].
Proof.
  rewrite elem_of_stages.
  intros [-> | [-> | [-> | [-> | ->]]]]; cbv zeta;
    cbn -[JSON_stringify]; unfold definePlugin, node_env_or, JSON_stringify_opt;
    cbn -[JSON_stringify]; destruct (NODE_ENV w) as [[|a v]|]; reflexivity.
Qed.

(** X11: the build-css and build-javascript stages serve from the same
    public path, and it is the one [OfflinePlugin] is given.  It is [/]
    when links are not prefixed; otherwise it is the link prefix of the site
    followed by a slash, and [undefined/] when the site has none. *)
Theorem publicPath_of_the_builds (program : Program) (directory : string)
    (port : option N) (pages : option (list Page)) (w : World) :
  let publicPath s := out_publicPath ∘ cfg_output ∘ merged <$>
                      composed (compose None program directory s port pages w) in
  ∃ p,
    publicPath "build-css" = Some (Some p) ∧
    publicPath "build-javascript" = Some (Some p) ∧
    OfflinePlugin p false true
      ∈ default [] (cfg_plugins ∘ merged <$>
          composed (compose None program directory "build-javascript" port pages w)) ∧
    p = match prefixLinks program, linkPrefix (siteDB_config w) with
        | false, _ => "/"
        | true, Some prefix => prefix +:+ "/"
        | true, None => "undefined/"
        end ∧
    publicPath "build-html" = Some None.
Proof.
  cbv zeta. eexists. repeat apply conj; try reflexivity.
  - apply list_elem_of_In. cbn -[Nat.div]. tauto.
  - unfold prefixed_publicPath, template_opt. cbn.
    destruct (prefixLinks program), (linkPrefix (siteDB_config w)); reflexivity.
Qed.

(** X12: a stage has a rule that extracts with [ExtractTextPlugin.extract]
    exactly when its plugins include an [ExtractTextPlugin], which is then
    the only one and writes [styles.css]. *)
Theorem extraction_has_its_plugin (program : Program) (directory s : string)
    (port : option N) (pages : option (list Page)) (w : World) :
  s ∈ stages ->
  ∃ c, composed (compose None program directory s port pages w) = Some c ∧
    existsb (λ kr, extracts kr.2) (loaders c)
    = existsb is_ExtractTextPlugin (cfg_plugins (merged c)) ∧
    List.filter is_ExtractTextPlugin (cfg_plugins (merged c))
    = if existsb (λ kr, extracts kr.2) (loaders c)
      then [ExtractTextPlugin "styles.css"] else [].
Proof.
  rewrite elem_of_stages.
  intros [-> | [-> | [-> | [-> | ->]]]]; eexists;
    (split; [reflexivity|]); split; reflexivity.
Qed.

(** X13: in the develop stage the client of the development server is the
    first module of the one entry, it is told the URL the bundles are served
    from, and the app of the site comes last. *)
Theorem develop_client_uses_publicPath (program : Program) (directory : string)
    (port : option N) (pages : option (list Page)) (w : World) :
  ∃ c url rest,
    composed (compose None program directory "develop" port pages w) = Some c ∧
    out_publicPath (cfg_output (merged c)) = Some url ∧
    cfg_entry (merged c) =
      [("commons",
        EntryMany (((require_resolve "webpack-dev-server/client" +:+ "?" +:+ url)
                    :: rest) ++ [directory +:+ "/.intermediate-representation/app"]))] ∧
    length rest = 2.
Proof. eexists _, _, [_; _]. repeat apply conj; reflexivity. Qed.

(** X14: in the build-javascript stage the first chunk that
    [CommonsChunkPlugin] extracts from is the one entry of the stage, and
    the chunk it extracts into has another name. *)
Theorem commons_chunk_starts_at_the_entry (program : Program) (directory : string)
    (port : option N) (pages : option (list Page)) (w : World) :
  ∃ c name chunks m,
    composed (compose None program directory "build-javascript" port pages w)
    = Some c ∧
    commonsChunk (cfg_plugins (merged c)) = Some (name, chunks, m) ∧
    head chunks = head (cfg_entry (merged c)).*1 ∧
    length (cfg_entry (merged c)) = 1 ∧
    name ∉ (cfg_entry (merged c)).*1.
Proof.
  eexists _, _, _, _. repeat apply conj; try reflexivity.
  cbn. rewrite list_elem_of_singleton. discriminate.
Qed.

(** ** The shared chunk as the registry grows *)

Lemma commonsChunk_build_javascript (program : Program) (directory : string)
    (port : option N) (pages : option (list Page)) (w : World) :
  minChunks_of (compose None program directory "build-javascript" port pages w)
  = Some (size (distinct_components (pagesDB_values w)) / 2).
Proof.
  unfold distinct_components. rewrite <- length_uniq.
  rewrite <- (length_fmap layoutComponentChunkName). reflexivity.
Qed.

(** X15: [minChunks] does not go down when the registry comes to hold
    pages of every component it held before, and twice [minChunks] is at
    most the number of pages in the registry. *)
Theorem minChunks_grows_with_components (program : Program) (directory : string)
    (port : option N) (pages : option (list Page)) (w w' : World) :
  distinct_components (pagesDB_values w) ⊆ distinct_components (pagesDB_values w') ->
  ∃ m m',
    minChunks_of (compose None program directory "build-javascript" port pages w)
    = Some m ∧
    minChunks_of (compose None program directory "build-javascript" port pages w')
    = Some m' ∧
    m ≤ m' ∧ 2 * m ≤ length (pagesDB w).
Proof.
  intros Hsub.
  eexists _, _. split; [apply commonsChunk_build_javascript|].
  split; [apply commonsChunk_build_javascript|].
  split.
  - apply Nat.Div0.div_le_mono. by apply subseteq_size.
  - unfold distinct_components, pagesDB_values.
    transitivity (size (list_to_set (C := gset string)
                          (component <$> (pagesDB w).*2))).
    + pose proof (Nat.Div0.mul_div_le
                    (size (list_to_set (C := gset string)
                             (component <$> (pagesDB w).*2))) 2). lia.
    + rewrite <- length_uniq.
      assert (∀ seen l, length (uniq_from seen l) ≤ length l) as Hle.
      { intros seen l. revert seen. induction l as [|x l IH]; intros seen; simpl.
        - lia.
        - destruct (existsb _ _); [specialize (IH seen) | specialize (IH (x :: seen))];
            simpl; lia. }
      unfold uniq. etransitivity; [apply Hle|]. by rewrite !length_fmap.
Qed.

(** ** More on the hook *)

(** A hook that hands back the configuration it was given changes
    nothing: the call does what it does without a hook, for every token,
    stage or not. *)
Lemma hook_that_returns_its_argument (program : Program) (directory s : string)
    (port : option N) (pages : option (list Page)) (w : World) :
  compose (Some (λ config _, VConfig config)) program directory s port pages w
  = compose None program directory s port pages w.
Proof. reflexivity. Qed.

(** X16: the hook is never called with [develop-html]: what it would answer
    to that token has no part in any call. *)
Theorem hook_never_sees_develop_html (hook : Config -> string -> JSValue)
    (answer : JSValue) (program : Program) (directory s : string)
    (port : option N) (pages : option (list Page)) (w : World) :
  compose (Some (λ config stage,
                   if String.eqb stage "develop-html" then answer
                   else hook config stage))
          program directory s port pages w
  = compose (Some hook) program directory s port pages w.
Proof.
  unfold compose, exports_body.
  destruct (config _ _ _ _ _ _); [|reflexivity].
  cbn [bind]. rewrite stage_not_develop_html. reflexivity.
Qed.

(** ** Loading the hook *)

(** X17: loading the module fails exactly when requiring [gatsby-node]
    throws [null] or [undefined], for the catch block then throws itself;
    a hook comes from the exports only, with nothing logged.  What was
    caught is not logged when its code is [MODULE_NOT_FOUND], and for what
    has no [Error] property, as the errors of node, the code alone decides. *)
Theorem loading_gatsby_node (r : Required) (e : Caught) :
  (load_gatsby_node r = None <-> r = Throws None) ∧
  (∀ hook logged,
     load_gatsby_node r = Some (Some hook, logged) <->
     r = Exports (Some hook) ∧ logged = []) ∧
  (caught_code e = Some "MODULE_NOT_FOUND" ->
   load_gatsby_node (Throws (Some e)) = Some (None, [])) ∧
  (caught_Error e = VUndefined ->
   load_gatsby_node (Throws (Some e))
   = Some (None, if bool_decide (caught_code e = Some "MODULE_NOT_FOUND")
                 then [] else [e])).
Proof.
  split; [|split; [|split]].
  - destruct r as [h| |[e'|]]; cbn; split; intros H;
      (discriminate H || reflexivity).
  - intros hook logged. destruct r as [[h|]| |[e'|]]; cbn; split;
      try discriminate; try (intros [Hr _]; discriminate Hr).
    + intros H. injection H as -> <-. done.
    + intros [H ->]. injection H as ->. reflexivity.
  - intros Hcode. cbn. rewrite Hcode. reflexivity.
  - intros Herr. cbn. rewrite Herr. cbn.
    destruct (bool_decide _); reflexivity.
Qed.

End Composer.

Arguments VUndefined {BabelQuery Number}.
Arguments VNull {BabelQuery Number}.
Arguments VBool {BabelQuery Number} b.
Arguments VNumber {BabelQuery Number} n.
Arguments VString {BabelQuery Number} s.
Arguments VArray {BabelQuery Number} items.
Arguments VObject {BabelQuery Number} fields.
Arguments VFunction {BabelQuery Number} src.
Arguments VConfig {BabelQuery Number} config.
Arguments composed {BabelQuery Number} r.
Arguments minChunks_of {BabelQuery Number} r.
Arguments merged {BabelQuery} c.
Arguments loaders {BabelQuery} c.
Arguments loader_of {BabelQuery} key c.
Arguments call_result {BabelQuery Number} c.
Arguments call_stamps {BabelQuery Number} c.
Arguments call_world {BabelQuery Number} c.
Arguments call_counters {BabelQuery Number} c.

(** ** The properties on the sample site *)

(** [compose] with the stand-ins for its imports. *)
Abbreviation sample_compose :=
  (compose (list string) sample_babelConfig sample_layoutComponentChunkName
           sample_require_resolve sample_path_resolve sample_dirname
           SampleNumber sample_Number_toString).

Abbreviation sample_compose_instances :=
  (compose_instances (list string) sample_babelConfig
     sample_layoutComponentChunkName sample_require_resolve
     sample_path_resolve sample_dirname SampleNumber sample_Number_toString).

Example minChunks_no_component :
  minChunks_of (sample_compose None localhost "/site" "build-javascript" None None
                  (world_with_components [])) = Some 0.
Proof. reflexivity. Qed.

Example minChunks_one_component :
  minChunks_of (sample_compose None localhost "/site" "build-javascript" None None
                  (world_with_components ["A"])) = Some 0.
Proof. reflexivity. Qed.

Example minChunks_four_components :
  minChunks_of (sample_compose None localhost "/site" "build-javascript" None None
                  (world_with_components ["A"; "B"; "C"; "D"])) = Some 2.
Proof. reflexivity. Qed.

Example minChunks_five_components :
  minChunks_of (sample_compose None localhost "/site" "build-javascript" None None
                  (world_with_components ["A"; "B"; "C"; "D"; "E"])) = Some 2.
Proof. reflexivity. Qed.

(** Components A, B, A in the registry: two distinct ones, [minChunks] 1. *)
Example minChunks_registry_A_B_A :
  minChunks_of (sample_compose None localhost "/site" "build-javascript"
                  (Some 1500%N) (Some []) site_world) = Some 1.
Proof. reflexivity. Qed.

(** C1 as stated fails: with pages on components A, B, A supplied as the
    argument and a registry that is still empty, [minChunks] is 0 and not
    half the number of distinct components of the supplied pages. *)
Lemma minChunks_supplied_pages_counterexample :
  let supplied := [page_index; page_about; page_blog] in
  minChunks_of (sample_compose None localhost "/site" "build-javascript"
                  (Some 1500%N) (Some supplied) fresh_world) = Some 0 ∧
  size (distinct_components supplied) / 2 = 1 ∧
  minChunks_of (sample_compose None localhost "/site" "build-javascript"
                  (Some 1500%N) (Some supplied) fresh_world)
  ≠ Some (size (distinct_components supplied) / 2).
Proof.
  cbv zeta. repeat apply conj.
  - reflexivity.
  - vm_compute. reflexivity.
  - intros H. vm_compute in H. discriminate H.
Qed.


(** A hook that returns [null] in the develop-html stage: the message names
    the value and the normalised stage. *)
Example hook_null_fails :
  (sample_compose (Some (λ _ _, VNull)) localhost "/site" "develop-html" None None
     site_world).1
  = Throw (ConfigContractError
      (newline +:+
       "              You must return an object when modifying the Webpack config." +:+
       newline +:+
       "              Returned: null" +:+ newline +:+
       "              stage: develop" +:+ newline +:+
       "              ")).
Proof. reflexivity. Qed.

Example hook_string_fails :
  ∃ message,
    (sample_compose (Some (λ _ _, VString "webpack")) localhost "/site" "build-css"
       None None site_world).1 = Throw (ConfigContractError message) ∧
    contains "Returned: webpack" message = true ∧
    contains "stage: build-css" message = true.
Proof. eexists. repeat apply conj; reflexivity. Qed.

(** A hook that hands the configuration back. *)
Example hook_identity :
  sample_compose (Some (λ config _, VConfig config)) localhost "/site" "build-html"
    None None site_world
  = sample_compose None localhost "/site" "build-html" None None site_world.
Proof. reflexivity. Qed.

Lemma profile_is_false_witness :
  "build-javascript" ∈ stages ∧
  cfg_profile ∘ merged <$>
    composed (sample_compose None localhost "/site" "build-javascript" None None
                site_world) = Some false.
Proof.
  assert ("build-javascript" ∈ stages) as Hs
    by (apply (bool_decide_unpack _); vm_compute; exact I).
  split; [exact Hs|].
  exact (profile_is_false (list string) sample_babelConfig
           sample_layoutComponentChunkName sample_require_resolve
           sample_path_resolve sample_dirname SampleNumber
           sample_Number_toString localhost "/site"
           "build-javascript" None None site_world Hs).
Defined.

Lemma unknown_stage_fails_witness :
  ("production" ∉ stages) ∧
  sample_compose None localhost "/site" "production" None None site_world
  = (Throw (StageError "The state requested production doesn't exist."),
     debug ("Loading webpack config for stage " +:+ dquote +:+ "production" +:+ dquote)
           site_world).
Proof.
  assert ("production" ∉ stages) as Hs
    by (apply (bool_decide_unpack _); vm_compute; exact I).
  split; [exact Hs|].
  exact (proj1 (proj2
           (unknown_stage_fails (list string) sample_babelConfig
              sample_layoutComponentChunkName sample_require_resolve
              sample_path_resolve sample_dirname SampleNumber
           sample_Number_toString None localhost "/site"
              "production" None None site_world Hs))).
Defined.


(** A hook that returns the string [%s]: [invariant] takes it for a place to
    fill, and the message does not show what was returned. *)
Example hook_percent_s_fails :
  (sample_compose (Some (λ _ _, VString "%s")) localhost "/site" "build-html"
     None None site_world).1
  = Throw (ConfigContractError
      (newline +:+
       "              You must return an object when modifying the Webpack config." +:+
       newline +:+
       "              Returned: undefined" +:+ newline +:+
       "              stage: build-html" +:+ newline +:+
       "              ")).
Proof. reflexivity. Qed.

(** A hook that returns a number that is not one. *)
Example hook_NaN_fails :
  ∃ message,
    (sample_compose (Some (λ _ _, VNumber number_NaN)) localhost "/site"
       "build-javascript" None None site_world).1
    = Throw (ConfigContractError message) ∧
    contains "Returned: NaN" message = true.
Proof. eexists. split; reflexivity. Qed.



(** ** More of the module on the sample site *)

Arguments Build_Caught {BabelQuery Number} caught_code caught_Error.
Arguments caught_code {BabelQuery Number} c.
Arguments caught_Error {BabelQuery Number} c.
Arguments Exports {BabelQuery Number} modifyWebpackConfig.
Arguments NoExports {BabelQuery Number}.
Arguments Throws {BabelQuery Number} e.
Arguments TypeError {BabelQuery Number}.
Arguments load_gatsby_node {BabelQuery Number} r.
Arguments Config_merge {BabelQuery} settings.
Arguments extracts {BabelQuery} r.

Lemma planners_on_unknown_stage_witness :
  ("production" ∉ stages) ∧
  output site_world localhost "/site" "production" 1500%N
    = Throw (StageError "The state requested production doesn't exist.") ∧
  plugins sample_layoutComponentChunkName site_world localhost "production"
          [page_index]
    = Throw (StageError "The state requested production doesn't exist.") ∧
  devtool "production" = DevtoolFalse.
Proof.
  assert ("production" ∉ stages) as Hs
    by (apply (bool_decide_unpack _); vm_compute; exact I).
  split; [exact Hs|].
  exact (planners_on_unknown_stage sample_layoutComponentChunkName
           sample_require_resolve sample_dirname localhost "/site" "production"
           1500%N [page_index] site_world Hs).
Defined.

Lemma module_on_unknown_stage_witness :
  ("build" ∉ stages) ∧
  ∀ settings,
    (loaders (module (list string) sample_babelConfig localhost "build"
                (Config_merge settings))).*1
    = ["cjsx"; "js"; "coffee"; "json"; "images"; "woff"; "ttf"; "eot"].
Proof.
  assert ("build" ∉ stages) as Hs
    by (apply (bool_decide_unpack _); vm_compute; exact I).
  split; [exact Hs|].
  intros settings.
  exact (proj1 (module_on_unknown_stage (list string) sample_babelConfig
                  sample_layoutComponentChunkName sample_require_resolve
                  sample_dirname localhost "build" settings Hs)).
Defined.

Lemma common_rules_across_stages_witness :
  "develop" ∈ stages ∧ "build-html" ∈ stages ∧
  (λ c, (λ key, loader_of key c) <$> common_keys) <$>
    composed (sample_compose None localhost "/site" "develop" (Some 8000%N) None
                site_world)
  = (λ c, (λ key, loader_of key c) <$> common_keys) <$>
    composed (sample_compose None {| host := "0.0.0.0"; prefixLinks := true |}
                "/blog" "build-html" None (Some [page_about]) fresh_world).
Proof.
  assert ("develop" ∈ stages) as Hs
    by (apply (bool_decide_unpack _); vm_compute; exact I).
  assert ("build-html" ∈ stages) as Hs'
    by (apply (bool_decide_unpack _); vm_compute; exact I).
  split; [exact Hs|]. split; [exact Hs'|].
  exact (proj2 (common_rules_across_stages (list string) sample_babelConfig
                  sample_layoutComponentChunkName sample_require_resolve
                  sample_path_resolve sample_dirname SampleNumber
           sample_Number_toString
                  localhost {| host := "0.0.0.0"; prefixLinks := true |}
                  "/site" "/blog" "develop" "build-html" (Some 8000%N) None
                  None (Some [page_about]) site_world fresh_world Hs Hs')).
Defined.

Lemma resolution_depends_on_directory_witness :
  "build-css" ∈ stages ∧ "build-javascript" ∈ stages ∧
  ((λ c, (cfg_context (merged c), cfg_resolve (merged c),
          cfg_resolveLoader_root (merged c))) <$>
     composed (sample_compose None localhost "/site" "build-css" None None
                 site_world))
  = ((λ c, (cfg_context (merged c), cfg_resolve (merged c),
            cfg_resolveLoader_root (merged c))) <$>
     composed (sample_compose None {| host := "0.0.0.0"; prefixLinks := true |}
                 "/site" "build-javascript" (Some 8000%N) (Some [page_about])
                 fresh_world)).
Proof.
  assert ("build-css" ∈ stages) as Hs
    by (apply (bool_decide_unpack _); vm_compute; exact I).
  assert ("build-javascript" ∈ stages) as Hs'
    by (apply (bool_decide_unpack _); vm_compute; exact I).
  split; [exact Hs|]. split; [exact Hs'|].
  exact (proj1 (resolution_depends_on_directory (list string)
                  sample_babelConfig sample_layoutComponentChunkName
                  sample_require_resolve sample_path_resolve sample_dirname SampleNumber
           sample_Number_toString
                  localhost {| host := "0.0.0.0"; prefixLinks := true |}
                  "/site" "build-css" "build-javascript" None (Some 8000%N)
                  None (Some [page_about]) site_world fresh_world Hs Hs')).
Defined.

Lemma pages_reach_build_html_only_witness :
  "build-javascript" ≠ "build-html" ∧
  sample_compose None localhost "/site" "build-javascript" None
    (Some [page_index; page_about]) site_world
  = sample_compose None localhost "/site" "build-javascript" None None site_world.
Proof.
  assert ("build-javascript" ≠ "build-html") as Hs by discriminate.
  split; [exact Hs|].
  exact (proj1 (pages_reach_build_html_only (list string) sample_babelConfig
                  sample_layoutComponentChunkName sample_require_resolve
                  sample_path_resolve sample_dirname SampleNumber
           sample_Number_toString None localhost "/site"
                  "build-javascript" None (Some [page_index; page_about]) None
                  site_world) Hs).
Defined.

Lemma port_reaches_develop_only_witness :
  "build-css" ≠ "develop" ∧ "build-css" ≠ "develop-html" ∧
  sample_compose None localhost "/site" "build-css" (Some 8000%N) None site_world
  = sample_compose None localhost "/site" "build-css" None None site_world.
Proof.
  assert ("build-css" ≠ "develop") as Hs by discriminate.
  assert ("build-css" ≠ "develop-html") as Hs' by discriminate.
  split; [exact Hs|]. split; [exact Hs'|].
  exact (port_reaches_develop_only (list string) sample_babelConfig
           sample_layoutComponentChunkName sample_require_resolve
           sample_path_resolve sample_dirname SampleNumber
           sample_Number_toString None localhost "/site"
           "build-css" (Some 8000%N) None None site_world Hs Hs').
Defined.

Lemma registry_reaches_build_javascript_only_witness :
  "build-html" ≠ "build-javascript" ∧
  (sample_compose None localhost "/site" "build-html" None None
     (with_pagesDB [] site_world)).1
  = (sample_compose None localhost "/site" "build-html" None None site_world).1.
Proof.
  assert ("build-html" ≠ "build-javascript") as Hs by discriminate.
  split; [exact Hs|].
  exact (registry_reaches_build_javascript_only (list string) sample_babelConfig
           sample_layoutComponentChunkName sample_require_resolve
           sample_path_resolve sample_dirname SampleNumber
           sample_Number_toString localhost "/site"
           "build-html" None None [] site_world Hs).
Defined.

Lemma one_DefinePlugin_per_stage_witness :
  "build-css" ∈ stages ∧
  List.filter is_DefinePlugin ∘ cfg_plugins ∘ merged <$>
    composed (sample_compose None localhost "/site" "build-css" None None
                site_world)
  = Some [DefinePlugin (JSON_stringify "production") false
                       (Some (JSON_stringify "/docs"))].
Proof.
  assert ("build-css" ∈ stages) as Hs
    by (apply (bool_decide_unpack _); vm_compute; exact I).
  split; [exact Hs|].
  exact (one_DefinePlugin_per_stage (list string) sample_babelConfig
           sample_layoutComponentChunkName sample_require_resolve
           sample_path_resolve sample_dirname SampleNumber
           sample_Number_toString localhost "/site" "build-css"
           None None site_world Hs).
Defined.

Lemma extraction_has_its_plugin_witness :
  "develop" ∈ stages ∧
  ∃ c, composed (sample_compose None localhost "/site" "develop" None None
                   site_world) = Some c ∧
    existsb (λ kr, extracts kr.2) (loaders c)
    = existsb is_ExtractTextPlugin (cfg_plugins (merged c)) ∧
    List.filter is_ExtractTextPlugin (cfg_plugins (merged c))
    = if existsb (λ kr, extracts kr.2) (loaders c)
      then [ExtractTextPlugin "styles.css"] else [].
Proof.
  assert ("develop" ∈ stages) as Hs
    by (apply (bool_decide_unpack _); vm_compute; exact I).
  split; [exact Hs|].
  exact (extraction_has_its_plugin (list string) sample_babelConfig
           sample_layoutComponentChunkName sample_require_resolve
           sample_path_resolve sample_dirname SampleNumber
           sample_Number_toString localhost "/site" "develop"
           None None site_world Hs).
Defined.

Lemma minChunks_grows_with_components_witness :
  distinct_components (pagesDB_values fresh_world)
    ⊆ distinct_components (pagesDB_values site_world) ∧
  ∃ m m',
    minChunks_of (sample_compose None localhost "/site" "build-javascript" None None
                    fresh_world) = Some m ∧
    minChunks_of (sample_compose None localhost "/site" "build-javascript" None None
                    site_world) = Some m' ∧
    m ≤ m' ∧ 2 * m ≤ length (pagesDB fresh_world).
Proof.
  assert (distinct_components (pagesDB_values fresh_world)
            ⊆ distinct_components (pagesDB_values site_world)) as Hsub
    by (apply (bool_decide_unpack _); vm_compute; exact I).
  split; [exact Hsub|].
  exact (minChunks_grows_with_components (list string) sample_babelConfig
           sample_layoutComponentChunkName sample_require_resolve
           sample_path_resolve sample_dirname SampleNumber
           sample_Number_toString localhost "/site" None None
           fresh_world site_world Hsub).
Defined.

Lemma loading_gatsby_node_witness :
  let missing : Caught (list string) SampleNumber :=
    {| caught_code := Some "MODULE_NOT_FOUND"; caught_Error := VUndefined |} in
  caught_code missing = Some "MODULE_NOT_FOUND" ∧
  caught_Error missing = VUndefined ∧
  load_gatsby_node (Throws (Some missing)) = Some (None, []).
Proof.
  cbv zeta. split; [reflexivity|]. split; [reflexivity|].
  exact (proj1 (proj2 (proj2
           (loading_gatsby_node (list string) SampleNumber NoExports
              {| caught_code := Some "MODULE_NOT_FOUND";
                 caught_Error := VUndefined |})))
           eq_refl).
Defined.

(** A syntax error in [gatsby-node] has no code: it is logged, and the calls
    go on without a hook. *)
Example syntax_error_is_logged :
  let e : Caught (list string) SampleNumber :=
    {| caught_code := None; caught_Error := VUndefined |} in
  load_gatsby_node (Throws (Some e)) = Some (None, [e]).
Proof. reflexivity. Qed.

(** A module that [gatsby-node] requires is missing: the code is the same,
    and nothing is logged. *)
Example missing_dependency_is_silent :
  let e : Caught (list string) SampleNumber :=
    {| caught_code := Some "MODULE_NOT_FOUND";
       caught_Error := VString "Cannot find module 'left-pad'" |} in
  load_gatsby_node (Throws (Some e)) = Some (None, []).
Proof. reflexivity. Qed.

(** [gatsby-node] throws [null]: the catch block throws in its turn, and the
    module is not loaded. *)
Example thrown_null_is_not_caught :
  load_gatsby_node (BabelQuery := list string) (Number := SampleNumber)
    (Throws None) = None.
Proof. reflexivity. Qed.

(** Links are prefixed and the site has no prefix. *)
Example publicPath_without_linkPrefix :
  out_publicPath ∘ cfg_output ∘ merged <$>
    composed (sample_compose None {| host := "localhost"; prefixLinks := true |}
                "/site" "build-javascript" None None
                (world_with_components ["A"]))
  = Some (Some "undefined/").
Proof. reflexivity. Qed.
